(** * Dashboard workbook generator: a shallow embedding of [dashboard.py]

    The script reads three tables (faculty, degrees, research), derives a
    "Total Research Expenditures" column, copies the tables into sheets,
    builds a lookup sheet of institution names and lays out two dashboard
    sheets made of literal cells, formula strings, styling and a bar chart.

    Conventions of the embedding:
    - a pandas cell is a [value]: an integer amount, a missing value (NaN),
      a string, or Python's [None] (which only openpyxl cells hold).
      Amounts are integers of unbounded size; the rounding of binary
      floating point is outside this model, and so are the other kinds of
      cell (dates, booleans), which the generator only copies;
    - a Python exception is the [Raise] branch of [result];
    - a [DataFrame] is its list of column labels with its records in order;
    - a worksheet is a finite map from (row, column) to cells, both counted
      from 1 as openpyxl does, together with column widths, data
      validations and charts; a workbook is the ordered list of its sheets;
    - [str(n)] for a row number is stdpp's [pretty] on [nat]. *)

From Stdlib Require Import QArith Qcanon.
From stdpp Require Import gmap strings list fin_maps sorting pretty.

Local Open Scope string_scope.
Local Open Scope nat_scope.
Local Open Scope list_scope.

(** ** Python values and exceptions *)

Inductive value : Type :=
  | VNone
  | VNaN
  | VInt (z : Z)
  | VStr (s : string).

Global Instance value_eq_dec : EqDecision value.
Proof. solve_decision. Defined.

Global Instance value_inhabited : Inhabited value := populate VNaN.

Inductive exn : Type :=
  | KeyError (key : string)
  | TypeError
  | ValueError
  | IndexError.

Inductive result (A : Type) : Type :=
  | Ok (a : A)
  | Raise (e : exn).
Global Arguments Ok {A} a.
Global Arguments Raise {A} e.

Definition bind {A B : Type} (m : result A) (f : A → result B) : result B :=
  match m with
  | Ok a => f a
  | Raise e => Raise e
  end.

Notation "x <- m ;; k" := (bind m (λ x, k))
  (at level 100, m at next level, right associativity).

(** [for x in l: acc = f(acc, x)] where the body may raise. *)
Fixpoint foldM {A B : Type} (f : B → A → result B) (acc : B) (l : list A)
  : result B :=
  match l with
  | [] => Ok acc
  | x :: l' => acc' <- f acc x;; foldM f acc' l'
  end.

(** [[f(x) for x in l]] where [f] may raise. *)
Fixpoint traverse {A B : Type} (f : A → result B) (l : list A)
  : result (list B) :=
  match l with
  | [] => Ok []
  | x :: l' => y <- f x;; ys <- traverse f l';; Ok (y :: ys)
  end.

(** ** Row tables (pandas data frames) *)

Record DataFrame : Type := {
  columns : list string;
  data : list (list value)
}.

(** Frames are rectangular and, as [read_excel] renames repeated headers,
    their labels are pairwise distinct. *)
Definition df_wf (df : DataFrame) : Prop :=
  NoDup (columns df) ∧
  Forall (λ row, length row = length (columns df)) (data df).

(** Position of a label, [KeyError] when the frame has no such column. *)
Definition get_loc (cols : list string) (name : string) : result nat :=
  match list_find (λ c, c = name) cols with
  | Some (j, _) => Ok j
  | None => Raise (KeyError name)
  end.

(** [df[names]]: the frame restricted to the listed columns, in that order. *)
Definition select (df : DataFrame) (names : list string) : result DataFrame :=
  js <- traverse (get_loc (columns df)) names;;
  Ok {| columns := names;
        data := (λ row : list value, (λ j : nat, row !!! j) <$> js)
                  <$> data df |}.

(** [df[name]]: one column as the sequence of its values. *)
Definition getitem (df : DataFrame) (name : string) : result (list value) :=
  j <- get_loc (columns df) name;;
  Ok ((λ row : list value, row !!! j) <$> data df).

(** One step of a row sum with [skipna=True]: missing values are skipped.
    Text in a fund column is modelled as the [TypeError] that adding a
    string to a number raises. *)
Definition add_skipna (acc : Z) (v : value) : result Z :=
  match v with
  | VInt z => Ok (acc + z)%Z
  | VNaN | VNone => Ok acc
  | VStr _ => Raise TypeError
  end.

Definition row_sum (row : list value) : result Z := foldM add_skipna 0%Z row.

(** [df.sum(axis=1)]: one sum per record. *)
Definition sum_axis1 (df : DataFrame) : result (list value) :=
  traverse (λ row, z <- row_sum row;; Ok (VInt z)) (data df).

(** [df[name] = vals]: an existing column is overwritten in place, a new
    label is appended as the last column. *)
Definition setitem (df : DataFrame) (name : string) (vals : list value)
  : DataFrame :=
  match list_find (λ c, c = name) (columns df) with
  | Some (j, _) =>
      {| columns := columns df;
         data := zip_with (λ row v, <[j := v]> row) (data df) vals |}
  | None =>
      {| columns := columns df ++ [name];
         data := zip_with (λ row v, row ++ [v]) (data df) vals |}
  end.




Definition fund_columns : list string :=
  [ "Federal Fund Sum"; "Foreign Fund Sum"; "Individual Fund Sum";
    "Industry Fund Sum"; "Local Fund Sum"; "Non-Profit Fund Sum";
    "Research Expenditures State Fund Sum" ].



(** ** Aggregator *)

Definition total_column : string := "Total Research Expenditures".

(** [research_df['Total Research Expenditures'] =
       research_df[fund_columns].sum(axis=1)] *)
Definition add_total_research_expenditures (research_df : DataFrame)
  : result DataFrame :=
  funds <- select research_df fund_columns;;
  totals <- sum_axis1 funds;;
  Ok (setitem research_df total_column totals).

(** ** Worksheets and workbooks (openpyxl) *)

Record Font : Type := { font_bold : bool; font_size : option nat }.

Inductive SideStyle : Type := thin.

Record Border : Type := {
  border_left : option SideStyle;
  border_right : option SideStyle;
  border_top : option SideStyle;
  border_bottom : option SideStyle
}.

Record Alignment : Type := { horizontal : option string }.

Record Cell : Type := {
  cell_value : value;
  cell_font : option Font;
  cell_border : option Border;
  cell_alignment : option Alignment
}.

Definition empty_cell : Cell :=
  {| cell_value := VNone; cell_font := None;
     cell_border := None; cell_alignment := None |}.

(** A rectangle of cells of the sheet that holds the chart. *)
Record Reference : Type := {
  min_col : nat;
  min_row : nat;
  max_col : nat;
  max_row : nat
}.

(** A plotted series: the cell its title is read from, its values and its
    category labels. *)
Record Series : Type := {
  series_title : option (nat * nat);
  series_values : Reference;
  series_cat : option Reference
}.

Record BarChart : Type := {
  chart_title : string;
  chart_style : nat;
  chart_series : list Series;
  chart_height : nat;
  chart_width : nat
}.

Record DataValidation : Type := {
  dv_type : string;
  dv_formula1 : string;
  dv_allow_blank : bool;
  dv_cells : list (nat * nat)
}.

(** Cells are keyed by (row, column). *)
Record Worksheet : Type := {
  ws_title : string;
  ws_cells : gmap (nat * nat) Cell;
  ws_column_widths : gmap string nat;
  ws_data_validations : list DataValidation;
  ws_charts : list (BarChart * string)
}.

Definition Workbook : Type := list Worksheet.

Definition new_sheet (title : string) : Worksheet :=
  {| ws_title := title; ws_cells := ∅; ws_column_widths := ∅;
     ws_data_validations := []; ws_charts := [] |}.

(** [openpyxl.Workbook()]: a fresh workbook already holds one empty sheet
    titled "Sheet". *)
Definition new_workbook : Workbook := [new_sheet "Sheet"].

(** [wb.create_sheet(title)] puts the new sheet last and hands it to the
    caller.  Each builder is the only writer of the sheet it created, so
    the embedding lets the builder fill the sheet and attaches it then; the
    sheets end up in the order of the [create_sheet] calls.  openpyxl
    renames a title that is already taken; the titles used here never
    clash, so that renaming is not modelled. *)
Definition create_sheet (wb : Workbook) (ws : Worksheet) : Workbook :=
  wb ++ [ws].

Definition sheetnames (wb : Workbook) : list string := ws_title <$> wb.

Definition with_cells (f : gmap (nat * nat) Cell → gmap (nat * nat) Cell)
  (ws : Worksheet) : Worksheet :=
  {| ws_title := ws_title ws; ws_cells := f (ws_cells ws);
     ws_column_widths := ws_column_widths ws;
     ws_data_validations := ws_data_validations ws;
     ws_charts := ws_charts ws |}.

(** The cell at a coordinate, the empty cell when none was created yet. *)
Definition get_cell (ws : Worksheet) (rc : nat * nat) : Cell :=
  default empty_cell (ws_cells ws !! rc).

(** Reading [ws[coord]] or [ws.cell(row, column)] creates the cell. *)
Definition touch_cell (rc : nat * nat) (ws : Worksheet) : Worksheet :=
  with_cells (λ m, <[rc := get_cell ws rc]> m) ws.

Definition update_cell (rc : nat * nat) (f : Cell → Cell) (ws : Worksheet)
  : Worksheet :=
  with_cells (λ m, <[rc := f (get_cell ws rc)]> m) ws.

Definition set_value (v : value) (c : Cell) : Cell :=
  {| cell_value := v; cell_font := cell_font c;
     cell_border := cell_border c; cell_alignment := cell_alignment c |}.

Definition set_font (f : Font) (c : Cell) : Cell :=
  {| cell_value := cell_value c; cell_font := Some f;
     cell_border := cell_border c; cell_alignment := cell_alignment c |}.

Definition set_border (b : Border) (c : Cell) : Cell :=
  {| cell_value := cell_value c; cell_font := cell_font c;
     cell_border := Some b; cell_alignment := cell_alignment c |}.

Definition set_alignment (a : Alignment) (c : Cell) : Cell :=
  {| cell_value := cell_value c; cell_font := cell_font c;
     cell_border := cell_border c; cell_alignment := Some a |}.

(** [ws[coord] = v] *)
Definition ws_setitem (rc : nat * nat) (v : value) (ws : Worksheet)
  : Worksheet :=
  update_cell rc (set_value v) ws.

(** [ws.cell(row=r, column=c, value=v)]: the value is stored unless it is
    [None]. *)
Definition ws_cell (r c : nat) (v : value) (ws : Worksheet) : Worksheet :=
  match v with
  | VNone => touch_cell (r, c) ws
  | _ => update_cell (r, c) (set_value v) ws
  end.

(** Column letters of the A1 notation used by the script. *)
Definition col_A : nat := 1.
Definition col_B : nat := 2.
Definition col_C : nat := 3.
Definition col_D : nat := 4.
Definition col_E : nat := 5.

(** [enumerate(l, start)] *)
Fixpoint enumerate {A : Type} (start : nat) (l : list A) : list (nat * A) :=
  match l with
  | [] => []
  | x :: l' => (start, x) :: enumerate (S start) l'
  end.

(** ** Sheet writer *)

(** The two nested loops that copy the records of a frame into a sheet. *)
Definition write_row (r_idx : nat) (row : list value) (sheet : Worksheet)
  : Worksheet :=
  fold_left (λ ws cv, ws_cell r_idx (fst cv) (snd cv) ws)
    (enumerate 1 row) sheet.

Definition write_rows (df : DataFrame) (sheet : Worksheet) : Worksheet :=
  fold_left (λ ws rr, write_row (fst rr) (snd rr) ws)
    (enumerate 1 (data df)) sheet.

Definition create_data_sheets (wb : Workbook)
  (faculty_df degrees_df research_df : DataFrame) : Workbook :=
  let wb := create_sheet wb (write_rows faculty_df (new_sheet "Faculty Data")) in
  let wb := create_sheet wb (write_rows degrees_df (new_sheet "Degrees Data")) in
  create_sheet wb (write_rows research_df (new_sheet "Research Data")).

(** A cell that was only ever given a value. *)
Definition plain_cell (v : value) : Cell := set_value v empty_cell.

(** The value of field [j] of record [i], both counted from 0. *)
Definition record_field (df : DataFrame) (i j : nat) : option value :=
  match data df !! i with
  | Some row => row !! j
  | None => None
  end.

(** The sheet shows the records of the frame from its first row and first
    column on, and nothing else. *)
Definition sheet_holds (df : DataFrame) (ws : Worksheet) : Prop :=
  ∀ r c,
    ws_cells ws !! (r, c)
    = match r, c with
      | S i, S j => plain_cell <$> record_field df i j
      | _, _ => None
      end.

(** What [ws.cell(..., value=v)] leaves in a cell that held [old]. *)
Definition written (v : value) (old : option Cell) : Cell :=
  match v with
  | VNone => default empty_cell old
  | _ => set_value v (default empty_cell old)
  end.

(** ** Lookup builder *)

(** [Series.unique()]: the distinct values in order of first appearance. *)
Fixpoint unique_from (seen : list value) (l : list value) : list value :=
  match l with
  | [] => []
  | x :: l' =>
      if decide (x ∈ seen) then unique_from seen l'
      else x :: unique_from (x :: seen) l'
  end.

Definition unique (l : list value) : list value := unique_from [] l.

(** Python's [<] on the values a column can hold: strings compare by code
    point (byte order of their UTF-8 text), a comparison with NaN is false,
    and a string against a number is a [TypeError]. *)
Definition py_lt (x y : value) : result bool :=
  match x, y with
  | VStr a, VStr b => Ok (String.ltb a b)
  | VInt a, VInt b => Ok (a <? b)%Z
  | VNaN, VInt _ | VInt _, VNaN | VNaN, VNaN => Ok false
  | _, _ => Raise TypeError
  end.

(** [sorted(l)], a stable sort that only uses [<].  Where [<] is a strict
    total order on the elements, as it is on strings, every such sort
    returns the same list; this one inserts the elements one by one. *)
Fixpoint sorted_insert (x : value) (l : list value) : result (list value) :=
  match l with
  | [] => Ok [x]
  | y :: l' =>
      b <- py_lt x y;;
      if b then Ok (x :: y :: l')
      else (l'' <- sorted_insert x l';; Ok (y :: l''))
  end.

Definition sorted (l : list value) : result (list value) :=
  foldM (λ acc x, sorted_insert x acc) [] l.

Definition create_lookups_sheet (wb : Workbook) (faculty_df : DataFrame)
  : result (Workbook * list value) :=
  let lookups := new_sheet "Lookups" in
  names <- getitem faculty_df "School Name";;
  unique_institutions <- sorted (unique names);;
  let lookups := ws_setitem (1, col_A) (VStr "Valid Institutions") lookups in
  let lookups :=
    fold_left (λ ws ii, ws_setitem (fst ii, col_A) (snd ii) ws)
      (enumerate 2 unique_institutions) lookups in
  Ok (create_sheet wb lookups, unique_institutions).

(** ** Dashboard builder: validations, charts, strings *)

Definition with_validations
  (f : list DataValidation → list DataValidation) (ws : Worksheet)
  : Worksheet :=
  {| ws_title := ws_title ws; ws_cells := ws_cells ws;
     ws_column_widths := ws_column_widths ws;
     ws_data_validations := f (ws_data_validations ws);
     ws_charts := ws_charts ws |}.

(** [ws.add_data_validation(dv)]: the sheet keeps the validation object;
    the position it is stored at stands for the Python reference [dv]. *)
Definition add_data_validation (dv : DataValidation) (ws : Worksheet)
  : Worksheet * nat :=
  (with_validations (λ l, l ++ [dv]) ws, length (ws_data_validations ws)).

(** [dv.add(ws[coord])]: looking the cell up creates it, and the validation
    held by the sheet gains the coordinate. *)
Definition dv_add (dv : nat) (rc : nat * nat) (ws : Worksheet) : Worksheet :=
  with_validations
    (alter (λ d, {| dv_type := dv_type d; dv_formula1 := dv_formula1 d;
                    dv_allow_blank := dv_allow_blank d;
                    dv_cells := dv_cells d ++ [rc] |}) dv)
    (touch_cell rc ws).

(** [Reference(ws, min_col, min_row, max_row)]: one column wide. *)
Definition column_reference (col first_row last_row : nat) : Reference :=
  {| min_col := col; min_row := first_row;
     max_col := col; max_row := last_row |}.

(** [chart.add_data(data, titles_from_data=True)]: one series per column of
    the reference; the first cell of the column gives the title and the
    cells below it the values. *)
Definition add_data (data : Reference) (chart : BarChart) : BarChart :=
  {| chart_title := chart_title chart; chart_style := chart_style chart;
     chart_series :=
       chart_series chart ++
       ((λ c, {| series_title := Some (min_row data, c);
                 series_values :=
                   column_reference c (S (min_row data)) (max_row data);
                 series_cat := None |})
          <$> seq (min_col data) (S (max_col data) - min_col data));
     chart_height := chart_height chart; chart_width := chart_width chart |}.

(** [chart.set_categories(cats)]: every series present gets the labels. *)
Definition set_categories (cats : Reference) (chart : BarChart) : BarChart :=
  {| chart_title := chart_title chart; chart_style := chart_style chart;
     chart_series :=
       (λ s, {| series_title := series_title s;
                series_values := series_values s;
                series_cat := Some cats |}) <$> chart_series chart;
     chart_height := chart_height chart; chart_width := chart_width chart |}.

Definition set_chart_size (h w : nat) (chart : BarChart) : BarChart :=
  {| chart_title := chart_title chart; chart_style := chart_style chart;
     chart_series := chart_series chart;
     chart_height := h; chart_width := w |}.

(** [ws.add_chart(chart, anchor)] *)
Definition add_chart (chart : BarChart) (anchor : string) (ws : Worksheet)
  : Worksheet :=
  {| ws_title := ws_title ws; ws_cells := ws_cells ws;
     ws_column_widths := ws_column_widths ws;
     ws_data_validations := ws_data_validations ws;
     ws_charts := ws_charts ws ++ [(chart, anchor)] |}.

(** [str(v)] *)
Definition py_str (v : value) : string :=
  match v with
  | VNone => "None"
  | VNaN => "nan"
  | VInt z => pretty z
  | VStr s => s
  end.

(** [len(s)] counts code points: every byte of the UTF-8 text except the
    continuation bytes [10xxxxxx]. *)
Definition is_continuation (a : Ascii.ascii) : bool :=
  match a with
  | Ascii.Ascii _ _ _ _ _ _ b6 b7 => b7 && negb b6
  end.

Fixpoint py_len (s : string) : nat :=
  match s with
  | EmptyString => 0
  | String a s' => (if is_continuation a then 0 else 1) + py_len s'
  end.

(** [range(a, b)] *)
Definition range (a b : nat) : list nat := seq a (b - a).

(** ** Formula cells of one metrics row *)

Definition add_institution_academic_formulas (dashboard : Worksheet)
  (row : nat) : Worksheet :=
  (* Total Faculty *)
  let dashboard :=
    ws_setitem (row, col_B)
      (VStr ("=SUMIFS('Faculty Data'!D:D,'Faculty Data'!B:B,$A" +:+ pretty row +:+ ") + " +:+
             "SUMIFS('Faculty Data'!E:E,'Faculty Data'!B:B,$A" +:+ pretty row +:+ ") + " +:+
             "SUMIFS('Faculty Data'!F:F,'Faculty Data'!B:B,$A" +:+ pretty row +:+ ")"))
      dashboard in
  (* Ratios *)
  let dashboard :=
    ws_setitem (row, col_C)
      (VStr ("=IFERROR(B" +:+ pretty row +:+
             "/SUMIFS('Degrees Data'!E:E,'Degrees Data'!C:C,$A" +:+ pretty row +:+ "),0)"))
      dashboard in
  let dashboard :=
    ws_setitem (row, col_D)
      (VStr ("=IFERROR(B" +:+ pretty row +:+
             "/SUMIFS('Degrees Data'!F:F,'Degrees Data'!C:C,$A" +:+ pretty row +:+ "),0)"))
      dashboard in
  ws_setitem (row, col_E)
    (VStr ("=IFERROR(B" +:+ pretty row +:+
           "/SUMIFS('Degrees Data'!G:G,'Degrees Data'!C:C,$A" +:+ pretty row +:+ "),0)"))
    dashboard.

Definition add_institution_research_formulas (dashboard : Worksheet)
  (row : nat) : Worksheet :=
  (* Total Faculty *)
  let dashboard :=
    ws_setitem (row, col_B)
      (VStr ("=SUMIFS('Faculty Data'!D:D,'Faculty Data'!B:B,$A" +:+ pretty row +:+ ") + " +:+
             "SUMIFS('Faculty Data'!E:E,'Faculty Data'!B:B,$A" +:+ pretty row +:+ ") + " +:+
             "SUMIFS('Faculty Data'!F:F,'Faculty Data'!B:B,$A" +:+ pretty row +:+ ")"))
      dashboard in
  (* Total Research Expenditures *)
  let dashboard :=
    ws_setitem (row, col_C)
      (VStr ("=SUMIFS('Research Data'!D:D,'Research Data'!C:C,$A" +:+ pretty row +:+ ") + " +:+
             "SUMIFS('Research Data'!E:E,'Research Data'!C:C,$A" +:+ pretty row +:+ ") + " +:+
             "SUMIFS('Research Data'!F:F,'Research Data'!C:C,$A" +:+ pretty row +:+ ") + " +:+
             "SUMIFS('Research Data'!G:G,'Research Data'!C:C,$A" +:+ pretty row +:+ ") + " +:+
             "SUMIFS('Research Data'!H:H,'Research Data'!C:C,$A" +:+ pretty row +:+ ") + " +:+
             "SUMIFS('Research Data'!I:I,'Research Data'!C:C,$A" +:+ pretty row +:+ ") + " +:+
             "SUMIFS('Research Data'!J:J,'Research Data'!C:C,$A" +:+ pretty row +:+ ")"))
      dashboard in
  (* Research Dollars per Faculty *)
  ws_setitem (row, col_D)
    (VStr ("=IFERROR(C" +:+ pretty row +:+ "/B" +:+ pretty row +:+ ",0)"))
    dashboard.

Definition add_academic_formulas (dashboard : Worksheet) (start_row : nat)
  : Worksheet :=
  (* Primary institution *)
  let row := start_row + 2 in
  let dashboard := ws_setitem (row, col_A) (VStr "=B2") dashboard in
  (* Faculty count and ratios *)
  let dashboard := add_institution_academic_formulas dashboard row in
  (* Comparison institutions *)
  fold_left
    (λ dashboard i,
       let row := start_row + 3 + i in
       let dashboard :=
         ws_setitem (row, col_A) (VStr ("=B" +:+ pretty (i + 5))) dashboard in
       add_institution_academic_formulas dashboard row)
    (range 0 5) dashboard.

Definition add_research_formulas (dashboard : Worksheet) (start_row : nat)
  : Worksheet :=
  (* Primary institution *)
  let row := start_row + 2 in
  let dashboard := ws_setitem (row, col_A) (VStr "=B2") dashboard in
  (* Faculty count and research metrics *)
  let dashboard := add_institution_research_formulas dashboard row in
  (* Comparison institutions *)
  fold_left
    (λ dashboard i,
       let row := start_row + 3 + i in
       let dashboard :=
         ws_setitem (row, col_A) (VStr ("=B" +:+ pretty (i + 5))) dashboard in
       add_institution_research_formulas dashboard row)
    (range 0 5) dashboard.

(** ** Styling *)

(** [get_column_letter(idx)]: bijective base 26, defined for 1..18278,
    the columns with at most three letters (18278 = 26 + 26^2 + 26^3). *)
Definition letter (n : nat) : string :=
  String (Ascii.ascii_of_nat (n + 64)) "".

Fixpoint column_letters (fuel col_idx : nat) (acc : string) : string :=
  match fuel with
  | O => acc
  | S fuel' =>
      if decide (col_idx = 0) then acc
      else
        let q := col_idx / 26 in
        let r := col_idx mod 26 in
        if decide (r = 0) then column_letters fuel' (q - 1) (letter 26 +:+ acc)
        else column_letters fuel' q (letter r +:+ acc)
  end.

Definition get_column_letter (col_idx : nat) : result string :=
  if decide (1 ≤ col_idx ∧ col_idx ≤ 26 + 26 * 26 + 26 * 26 * 26)
  then Ok (column_letters 3 col_idx "")
  else Raise ValueError.

Definition ws_max_row (ws : Worksheet) : nat :=
  max_list (1 :: ((λ kv, fst (fst kv)) <$> map_to_list (ws_cells ws))).

Definition ws_max_column (ws : Worksheet) : nat :=
  max_list (1 :: ((λ kv, snd (fst kv)) <$> map_to_list (ws_cells ws))).

(** [ws.columns]: nothing for a sheet without cells, otherwise the
    coordinates of columns 1..max_column over rows 1..max_row. *)
Definition ws_columns (ws : Worksheet) : list (list (nat * nat)) :=
  if decide (ws_cells ws = ∅) then []
  else (λ c, (λ r, (r, c)) <$> range 1 (S (ws_max_row ws)))
         <$> range 1 (S (ws_max_column ws)).

(** The inner loop of the width computation; [len(str(...))] cannot raise on
    the values a cell holds, so the [try] around it never catches. *)
Definition column_max_length (ws : Worksheet) (col : list (nat * nat)) : nat :=
  fold_left
    (λ max_length rc,
       let n := py_len (py_str (cell_value (get_cell ws rc))) in
       if max_length <? n then n else max_length)
    col 0.

Definition set_column_width (name : string) (w : nat) (ws : Worksheet)
  : Worksheet :=
  {| ws_title := ws_title ws; ws_cells := ws_cells ws;
     ws_column_widths := <[name := w]> (ws_column_widths ws);
     ws_data_validations := ws_data_validations ws;
     ws_charts := ws_charts ws |}.

(** One round of [for col in dashboard.columns]: producing the column
    creates its missing cells, then the width is stored under the letter of
    the column of its first cell. *)
Definition adjust_column_width (ws : Worksheet) (col : list (nat * nat))
  : result Worksheet :=
  let ws := fold_left (λ ws rc, touch_cell rc ws) col ws in
  let max_length := column_max_length ws col in
  match col with
  | [] => Raise IndexError
  | rc :: _ =>
      name <- get_column_letter (snd rc);;
      Ok (set_column_width name (max_length + 2) ws)
  end.

Definition thin_border : Border :=
  {| border_left := Some thin; border_right := Some thin;
     border_top := Some thin; border_bottom := Some thin |}.

Definition style_dashboard (dashboard : Worksheet) (start_row num_columns : nat)
  : result Worksheet :=
  let dashboard :=
    update_cell (1, col_A)
      (set_font {| font_bold := true; font_size := Some 14 |}) dashboard in
  let dashboard :=
    update_cell (start_row, col_A)
      (set_font {| font_bold := true; font_size := None |}) dashboard in
  let dashboard :=
    fold_left
      (λ ws row,
         fold_left
           (λ ws col,
              let ws := update_cell (row, col) (set_border thin_border) ws in
              update_cell (row, col)
                (set_alignment {| horizontal := Some "center" |}) ws)
           (range 1 (num_columns + 1)) ws)
      (range (start_row + 1) (start_row + 8)) dashboard in
  (* Adjust column widths *)
  foldM adjust_column_width dashboard (ws_columns dashboard).

(** ** Charts *)

(** [BarChart()]; the title, style and size it starts with are all
    replaced before the chart is attached. *)
Definition new_bar_chart : BarChart :=
  {| chart_title := ""; chart_style := 0; chart_series := [];
     chart_height := 0; chart_width := 0 |}.

Definition set_chart_title (t : string) (style : nat) (chart : BarChart)
  : BarChart :=
  {| chart_title := t; chart_style := style;
     chart_series := chart_series chart;
     chart_height := chart_height chart; chart_width := chart_width chart |}.

Definition create_academic_chart (dashboard : Worksheet) (start_row : nat)
  : Worksheet :=
  let chart :=
    set_chart_title "Faculty to Degree Ratios by Institution" 10 new_bar_chart in
  let chart :=
    fold_left
      (λ chart col,
         let data := column_reference col (start_row + 1) (start_row + 7) in
         add_data data chart)
      (range 3 6) chart in
  let cats := column_reference 1 (start_row + 2) (start_row + 7) in
  let chart := set_categories cats chart in
  let chart := set_chart_size 15 25 chart in
  add_chart chart "G2" dashboard.

Definition create_research_chart (dashboard : Worksheet) (start_row : nat)
  : Worksheet :=
  let chart :=
    set_chart_title "Research Dollars per Faculty by Institution" 10
      new_bar_chart in
  (* Research $ per Faculty column *)
  let data := column_reference 4 (start_row + 1) (start_row + 7) in
  let chart := add_data data chart in
  let cats := column_reference 1 (start_row + 2) (start_row + 7) in
  let chart := set_categories cats chart in
  let chart := set_chart_size 15 25 chart in
  add_chart chart "G2" dashboard.

(** ** The two dashboards *)

Definition create_academic_dashboard (wb : Workbook)
  (unique_institutions : list value) : result Workbook :=
  let dashboard := new_sheet "Academic Dashboard" in
  (* Header *)
  let dashboard :=
    ws_setitem (1, col_A) (VStr "Academic Metrics Dashboard") dashboard in
  let dashboard :=
    ws_setitem (2, col_A) (VStr "Primary Institution:") dashboard in
  let dashboard :=
    ws_setitem (4, col_A) (VStr "Comparison Institutions:") dashboard in
  (* Data validation *)
  let dv :=
    {| dv_type := "list";
       dv_formula1 :=
         "=Lookups!$A$2:$A$" +:+ pretty (length unique_institutions + 1);
       dv_allow_blank := true; dv_cells := [] |} in
  let '(dashboard, dv) := add_data_validation dv dashboard in
  let dashboard := dv_add dv (2, col_B) dashboard in
  (* Comparison rows *)
  let dashboard :=
    fold_left
      (λ dashboard i,
         let row := i + 5 in
         let dashboard :=
           ws_setitem (row, col_A) (VStr ("Institution " +:+ pretty (i + 1)))
             dashboard in
         dv_add dv (row, col_B) dashboard)
      (range 0 5) dashboard in
  (* Metrics section *)
  let metrics_start_row := 12 in
  let dashboard :=
    ws_setitem (metrics_start_row, col_A) (VStr "Metrics Summary") dashboard in
  let headers :=
    [ "Institution"; "Total Faculty"; "Faculty:Bachelors"; "Faculty:Masters";
      "Faculty:Doctoral" ] in
  let dashboard :=
    fold_left
      (λ dashboard ch,
         ws_cell (metrics_start_row + 1) (fst ch) (VStr (snd ch)) dashboard)
      (enumerate 1 headers) dashboard in
  (* Add formulas for all institutions *)
  let dashboard := add_academic_formulas dashboard metrics_start_row in
  (* Add styling *)
  dashboard <- style_dashboard dashboard metrics_start_row (length headers);;
  (* Add chart *)
  let dashboard := create_academic_chart dashboard metrics_start_row in
  Ok (create_sheet wb dashboard).

Definition create_research_dashboard (wb : Workbook)
  (unique_institutions : list value) : result Workbook :=
  let dashboard := new_sheet "Research Dashboard" in
  (* Header *)
  let dashboard :=
    ws_setitem (1, col_A) (VStr "Research Metrics Dashboard") dashboard in
  let dashboard :=
    ws_setitem (2, col_A) (VStr "Primary Institution:") dashboard in
  let dashboard :=
    ws_setitem (4, col_A) (VStr "Comparison Institutions:") dashboard in
  (* Data validation *)
  let dv :=
    {| dv_type := "list";
       dv_formula1 :=
         "=Lookups!$A$2:$A$" +:+ pretty (length unique_institutions + 1);
       dv_allow_blank := true; dv_cells := [] |} in
  let '(dashboard, dv) := add_data_validation dv dashboard in
  let dashboard := dv_add dv (2, col_B) dashboard in
  (* Comparison rows *)
  let dashboard :=
    fold_left
      (λ dashboard i,
         let row := i + 5 in
         let dashboard :=
           ws_setitem (row, col_A) (VStr ("Institution " +:+ pretty (i + 1)))
             dashboard in
         dv_add dv (row, col_B) dashboard)
      (range 0 5) dashboard in
  (* Metrics section *)
  let metrics_start_row := 12 in
  let dashboard :=
    ws_setitem (metrics_start_row, col_A) (VStr "Metrics Summary") dashboard in
  let headers :=
    [ "Institution"; "Total Faculty"; "Total Research Expenditures";
      "Research $ per Faculty" ] in
  let dashboard :=
    fold_left
      (λ dashboard ch,
         ws_cell (metrics_start_row + 1) (fst ch) (VStr (snd ch)) dashboard)
      (enumerate 1 headers) dashboard in
  (* Add formulas for all institutions *)
  let dashboard := add_research_formulas dashboard metrics_start_row in
  (* Add styling *)
  dashboard <- style_dashboard dashboard metrics_start_row (length headers);;
  (* Add chart *)
  let dashboard := create_research_chart dashboard metrics_start_row in
  Ok (create_sheet wb dashboard).

(** The sheet each dashboard builder attaches to the workbook. *)
Definition academic_dashboard (unique_institutions : list value) : Worksheet :=
  match create_academic_dashboard [] unique_institutions with
  | Ok [ws] => ws
  | _ => new_sheet ""
  end.

Definition research_dashboard (unique_institutions : list value) : Worksheet :=
  match create_research_dashboard [] unique_institutions with
  | Ok [ws] => ws
  | _ => new_sheet ""
  end.

Definition shown_value (ws : Worksheet) (rc : nat * nat) : value :=
  cell_value (get_cell ws rc).

(** A metrics table with the given column titles: the section title in
    A12, the titles in row 13, six rows of formulas below them (the first
    following B2, the others B5..B9), every cell of rows 14..19 under a
    title filled, and no value anywhere further down or to the right. *)
Definition metrics_table (ws : Worksheet) (headers : list string) : Prop :=
  shown_value ws (12, 1) = VStr "Metrics Summary" ∧
  (λ c, shown_value ws (13, c)) <$> seq 1 (length headers)
    = VStr <$> headers ∧
  (λ r, shown_value ws (r, 1)) <$> seq 14 6
    = VStr <$> ["=B2"; "=B5"; "=B6"; "=B7"; "=B8"; "=B9"] ∧
  ∀ r c, 13 < r →
    (shown_value ws (r, c) ≠ VNone ↔ r ≤ 19 ∧ 1 ≤ c ≤ length headers).

(** The columns whose values the charts of a sheet plot. *)
Definition plotted_columns (ws : Worksheet) : list nat :=
  chart ← fst <$> ws_charts ws;
  (λ s, min_col (series_values s)) <$> chart_series chart.

(** Every column under a title other than the first is plotted. *)
Definition plots_all_metrics (ws : Worksheet) (headers : list string) : Prop :=
  ∀ c, 2 ≤ c ≤ length headers → c ∈ plotted_columns ws.

(** The series a chart gets for column [c] of a metrics table that starts
    at row 12: title from row 13, values from rows 14..19, labels from
    column A. *)
Definition metric_series (c : nat) : Series :=
  {| series_title := Some (13, c);
     series_values := column_reference c 14 19;
     series_cat := Some (column_reference 1 14 19) |}.

(** Every cell of the sheet lies in a column that was given a width, and
    the width is at least the length of the cell's text. *)
Definition widths_cover (ws : Worksheet) : Prop :=
  ∀ r c cell, ws_cells ws !! (r, c) = Some cell →
    ∃ name w, get_column_letter c = Ok name ∧
              ws_column_widths ws !! name = Some w ∧
              py_len (py_str (cell_value cell)) ≤ w.

(** The width stored for the column of a cell covers the cell's text. *)
Definition width_covers (ws : Worksheet) (rc : nat * nat) (cell : Cell)
  : bool :=
  match get_column_letter (snd rc) with
  | Ok name =>
      match ws_column_widths ws !! name with
      | Some w => py_len (py_str (cell_value cell)) <=? w
      | None => false
      end
  | Raise _ => false
  end.

(** ** Workbook assembler *)

(** The three frames are what [read_excel] returned for the three input
    files; the workbook returned is what [wb.save] writes. *)
Definition create_dashboard_workbook
  (faculty_df degrees_df research_df : DataFrame) : result Workbook :=
  (* Calculate total research expenditures *)
  research_df <- add_total_research_expenditures research_df;;
  (* Create workbook *)
  let wb := new_workbook in
  (* Create data sheets *)
  let wb := create_data_sheets wb faculty_df degrees_df research_df in
  (* Create lookups sheet *)
  lk <- create_lookups_sheet wb faculty_df;;
  let '(wb, unique_institutions) := lk in
  (* Create academic metrics dashboard *)
  wb <- create_academic_dashboard wb unique_institutions;;
  (* Create research metrics dashboard *)
  create_research_dashboard wb unique_institutions.

(** Running the aggregator on its own output adds one more column. *)
Definition double_appends (research_df : DataFrame) : Prop :=
  ∃ once twice,
    add_total_research_expenditures research_df = Ok once ∧
    add_total_research_expenditures once = Ok twice ∧
    length (columns twice) = S (length (columns once)).

Definition academic_headers : list string :=
  [ "Institution"; "Total Faculty"; "Faculty:Bachelors"; "Faculty:Masters";
    "Faculty:Doctoral" ].

Definition research_headers : list string :=
  [ "Institution"; "Total Faculty"; "Total Research Expenditures";
    "Research $ per Faculty" ].

(** A small set of input tables used to run the generator. *)
Definition sample_faculty : DataFrame :=
  {| columns := ["Year"; "School Name"; "Rank"; "Bachelors"; "Masters";
                 "Doctoral"];
     data := [ [VInt 2023; VStr "B"; VStr "All"; VInt 0; VInt 0; VInt 0];
               [VInt 2023; VStr "A"; VStr "All"; VInt 1; VInt 2; VInt 3];
               [VInt 2022; VStr "B"; VStr "All"; VInt 4; VInt 0; VInt 1] ] |}.

Definition sample_degrees : DataFrame :=
  {| columns := ["Year"; "Level"; "Institution"; "Type"; "Bachelors";
                 "Masters"; "Doctoral"];
     data := [ [VInt 2023; VStr "All"; VStr "A"; VStr "x"; VInt 10; VInt 5;
                VInt 1] ] |}.

Definition sample_research : DataFrame :=
  {| columns := ["Year"; "Kind"; "Institution"] ++ fund_columns;
     data := [ [VInt 2023; VStr "k"; VStr "A"; VInt 1; VInt 2; VInt 3; VInt 4;
                VInt 5; VInt 6; VInt 7];
               [VInt 2023; VStr "k"; VStr "B"; VInt 10; VNaN; VInt 30; VNaN;
                VNaN; VInt 60; VInt (-1)];
               [VInt 2023; VStr "k"; VStr "C"; VNaN; VNaN; VNaN; VNaN; VNaN;
                VNaN; VNaN] ] |}.

(** ** The formulas as the spreadsheet engine reads them

    The generator only writes formula text.  To state what the text
    computes once the workbook is opened, the formulas are given here as
    syntax trees with their text, and a reading of the four operations they
    use: cell references, [+], [/], [SUMIFS] and [IFERROR]. *)

Inductive expr : Type :=
  | ENum (n : nat)
  | ECell (absolute_col : bool) (col row : nat)
  | EAdd (a b : expr)
  | EDiv (a b : expr)
  | ESumifs (sum_sheet : string) (sum_col : nat)
            (criteria_sheet : string) (criteria_col : nat) (criterion : expr)
  | EIfError (a fallback : expr).

Global Instance expr_eq_dec : EqDecision expr.
Proof. solve_decision. Defined.

Definition whole_column (sheet : string) (col : nat) : string :=
  "'" +:+ sheet +:+ "'!" +:+ column_letters 3 col "" +:+ ":"
      +:+ column_letters 3 col "".

Fixpoint render (e : expr) : string :=
  match e with
  | ENum n => pretty n
  | ECell absolute_col col row =>
      (if absolute_col then "$" else "") +:+ column_letters 3 col ""
        +:+ pretty row
  | EAdd a b => render a +:+ " + " +:+ render b
  | EDiv a b => render a +:+ "/" +:+ render b
  | ESumifs s sc cs cc crit =>
      "SUMIFS(" +:+ whole_column s sc +:+ "," +:+ whole_column cs cc +:+ ","
        +:+ render crit +:+ ")"
  | EIfError a b => "IFERROR(" +:+ render a +:+ "," +:+ render b +:+ ")"
  end.

Definition formula_text (e : expr) : string := "=" +:+ render e.

(** A cell value the engine takes for a formula: a string starting with
    the equals sign. *)
Definition is_formula (v : value) : bool :=
  match v with
  | VStr s => String.prefix "=" s
  | _ => false
  end.

Inductive xl_error : Type := DIV0 | VALUE | REF | CYCLE.

(** What a cell shows: nothing, a number, a text or an error value. *)
Inductive xl : Type :=
  | XBlank
  | XNum (q : Qc)
  | XText (s : string)
  | XErr (e : xl_error).

Global Instance xl_error_eq_dec : EqDecision xl_error.
Proof. solve_decision. Defined.

Global Instance xl_eq_dec : EqDecision xl.
Proof. solve_decision. Defined.

Definition is_error (x : xl) : bool :=
  match x with
  | XErr _ => true
  | _ => false
  end.

Section engine.
(** How the engine matches a cell of a criteria range against a criterion,
    how it reads a stored value, and which texts it takes for numbers. *)
Variable criterion_matches : xl → xl → bool.
Variable read_value : value → xl.
Variable numeric_text : string → option Qc.
Variable wb : Workbook.

Definition find_sheet (title : string) : option Worksheet :=
  snd <$> list_find (λ ws, ws_title ws = title) wb.

Definition shown (ws : Worksheet) (rc : nat * nat) : xl :=
  read_value (cell_value (get_cell ws rc)).

(** Operand of an arithmetic operator. *)
Definition to_number (x : xl) : xl_error + Qc :=
  match x with
  | XBlank => inr 0%Qc
  | XNum q => inr q
  | XText s =>
      match numeric_text s with
      | Some q => inr q
      | None => inl VALUE
      end
  | XErr e => inl e
  end.

Definition xl_add (x y : xl) : xl :=
  match to_number x, to_number y with
  | inl e, _ => XErr e
  | _, inl e => XErr e
  | inr a, inr b => XNum (a + b)%Qc
  end.

Definition xl_div (x y : xl) : xl :=
  match to_number x, to_number y with
  | inl e, _ => XErr e
  | _, inl e => XErr e
  | inr a, inr b => if decide (b = 0%Qc) then XErr DIV0 else XNum (a / b)%Qc
  end.

(** One row of a [SUMIFS]: a number of a matching row is added, texts and
    blanks are skipped, an error value is passed on. *)
Definition sumifs_step (sum_ws criteria_ws : Worksheet)
  (sum_col criteria_col : nat) (criterion : xl) (acc : xl) (r : nat) : xl :=
  if criterion_matches (shown criteria_ws (r, criteria_col)) criterion
  then
    match acc, shown sum_ws (r, sum_col) with
    | XErr e, _ => XErr e
    | _, XErr e => XErr e
    | XNum a, XNum q => XNum (a + q)%Qc
    | _, _ => acc
    end
  else acc.

Definition sumifs (sum_sheet : string) (sum_col : nat)
  (criteria_sheet : string) (criteria_col : nat) (criterion : xl) : xl :=
  match find_sheet sum_sheet, find_sheet criteria_sheet with
  | Some sum_ws, Some criteria_ws =>
      fold_left
        (sumifs_step sum_ws criteria_ws sum_col criteria_col criterion)
        (range 1 (S (Nat.max (ws_max_row sum_ws) (ws_max_row criteria_ws))))
        (XNum 0%Qc)
  | _, _ => XErr REF
  end.

Fixpoint eval_expr (lookup : nat * nat → xl) (e : expr) : xl :=
  match e with
  | ENum n => XNum (Q2Qc (inject_Z (Z.of_nat n)))
  | ECell _ col row => lookup (row, col)
  | EAdd a b => xl_add (eval_expr lookup a) (eval_expr lookup b)
  | EDiv a b => xl_div (eval_expr lookup a) (eval_expr lookup b)
  | ESumifs s sc cs cc crit => sumifs s sc cs cc (eval_expr lookup crit)
  | EIfError a b =>
      let x := eval_expr lookup a in
      if is_error x then eval_expr lookup b else x
  end.

(** The value of a dashboard cell: a formula cell is evaluated, following
    references to other formula cells; any other cell shows what the user
    typed into it. *)
Fixpoint eval_cell (formulas : gmap (nat * nat) expr)
  (typed : nat * nat → xl) (fuel : nat) (rc : nat * nat) : xl :=
  match formulas !! rc with
  | None => typed rc
  | Some e =>
      match fuel with
      | O => XErr CYCLE
      | S fuel' => eval_expr (eval_cell formulas typed fuel') e
      end
  end.
End engine.

(** The formula cells of one metrics row, as syntax. *)
Definition sumifs_by_institution (sheet : string) (sum_col criteria_col : nat)
  (row : nat) : expr :=
  ESumifs sheet sum_col sheet criteria_col (ECell true col_A row).

Definition total_faculty_expr (row : nat) : expr :=
  EAdd (EAdd (sumifs_by_institution "Faculty Data" 4 2 row)
             (sumifs_by_institution "Faculty Data" 5 2 row))
       (sumifs_by_institution "Faculty Data" 6 2 row).

Definition ratio_expr (degree_col : nat) (row : nat) : expr :=
  EIfError
    (EDiv (ECell false col_B row)
          (sumifs_by_institution "Degrees Data" degree_col 3 row))
    (ENum 0).

Definition total_research_expr (row : nat) : expr :=
  fold_left
    (λ e col, EAdd e (sumifs_by_institution "Research Data" col 3 row))
    (range 5 11) (sumifs_by_institution "Research Data" 4 3 row).

Definition dollars_per_faculty_expr (row : nat) : expr :=
  EIfError (EDiv (ECell false col_C row) (ECell false col_B row)) (ENum 0).

Definition academic_row_formulas (row : nat) : list (nat * nat * expr) :=
  [ (row, col_B, total_faculty_expr row);
    (row, col_C, ratio_expr 5 row);
    (row, col_D, ratio_expr 6 row);
    (row, col_E, ratio_expr 7 row) ].

Definition research_row_formulas (row : nat) : list (nat * nat * expr) :=
  [ (row, col_B, total_faculty_expr row);
    (row, col_C, total_research_expr row);
    (row, col_D, dollars_per_faculty_expr row) ].

(** The selector cell a metrics row follows: B2 for the first row, B5..B9
    for the five below it. *)
Definition selector_row (start_row row : nat) : nat :=
  if decide (row = start_row + 2) then 2 else row - (start_row + 3) + 5.

Definition metrics_rows (start_row : nat) : list nat :=
  range (start_row + 2) (start_row + 8).

Definition dashboard_formulas (row_formulas : nat → list (nat * nat * expr))
  (start_row : nat) : gmap (nat * nat) expr :=
  list_to_map
    (row ← metrics_rows start_row;
     ((row, col_A), ECell false col_B (selector_row start_row row))
       :: row_formulas row).

Definition data_sheet_titles : list string :=
  ["Faculty Data"; "Degrees Data"; "Research Data"].

(** No cell of the data sheets, filled or blank, matches the criterion. *)
Definition absent_from_data (criterion_matches : xl → xl → bool)
  (read_value : value → xl) (wb : Workbook) (criterion : xl) : Prop :=
  ∀ ws rc, ws ∈ wb → ws_title ws ∈ data_sheet_titles →
    criterion_matches (read_value (shown_value ws rc)) criterion = false.

Definition academic_formulas : gmap (nat * nat) expr :=
  dashboard_formulas academic_row_formulas 12.

Definition research_formulas : gmap (nat * nat) expr :=
  dashboard_formulas research_row_formulas 12.


(** The research table with its derived column. *)
Definition sample_research_totalled : DataFrame :=
  setitem sample_research total_column [VInt 28; VInt 99; VInt 0].

(** The workbook generated from the sample tables. *)
Definition sample_workbook : Workbook :=
  match
    create_dashboard_workbook sample_faculty sample_degrees sample_research
  with
  | Ok wb => wb
  | Raise _ => []
  end.

(** An engine that matches a criterion by equality and reads numbers and
    texts as they are stored. *)
Definition exact_match (cell criterion : xl) : bool :=
  bool_decide (cell = criterion).

Definition plain_reading (v : value) : xl :=
  match v with
  | VInt z => XNum (Q2Qc (inject_Z z))
  | VStr s => XText s
  | VNone | VNaN => XBlank
  end.

(** * Properties *)

(** Closes a decidable goal about concrete data by evaluation. *)
Ltac by_computation := apply (bool_decide_unpack _); vm_compute; exact I.


(** ** Generic facts about the error monad *)

Lemma bind_Ok {A B : Type} (m : result A) (f : A → result B) (b : B) :
  bind m f = Ok b ↔ ∃ a, m = Ok a ∧ f a = Ok b.
Proof.
  destruct m as [a|e]; simpl.
  - split; [eauto | by intros (a' & [= <-] & ?)].
  - split; [done | by intros (a' & ? & ?)].
Qed.


Lemma traverse_Ok_length {A B : Type} (f : A → result B) (l : list A)
    (l' : list B) :
  traverse f l = Ok l' → length l' = length l.
Proof.
  revert l'. induction l as [|x l IH]; intros l'; simpl.
  - by intros [= <-].
  - intros (y & _ & (ys & Hys & [= <-])%bind_Ok)%bind_Ok.
    simpl. f_equal. by apply IH.
Qed.

Lemma traverse_ext {A B : Type} (f g : A → result B) (l : list A) :
  (∀ x, x ∈ l → f x = g x) → traverse f l = traverse g l.
Proof.
  induction l as [|x l IH]; intros Hfg; simpl; [done|].
  rewrite Hfg by left. rewrite IH; [done|].
  intros y Hy. apply Hfg. by right.
Qed.

(** ** Column lookup *)

Lemma get_loc_Ok (cols : list string) (name : string) (j : nat) :
  get_loc cols name = Ok j ↔
  cols !! j = Some name ∧ ∀ i, i < j → cols !! i ≠ Some name.
Proof.
  unfold get_loc.
  destruct (list_find (λ c, c = name) cols) as [[i y]|] eqn:Hfind.
  - apply list_find_Some in Hfind as (Hi & -> & Hlt).
    split.
    + intros [= <-]. split; [done|]. intros k Hk Hc. by eapply Hlt.
    + intros [Hj Hmin]. f_equal.
      destruct (Nat.lt_trichotomy i j) as [?|[?|?]]; [|done|].
      * by destruct (Hmin i).
      * by destruct (Hlt j name).
  - split; [done|]. intros [Hj _].
    apply list_find_None in Hfind.
    rewrite Forall_forall in Hfind.
    destruct (Hfind name); [|done]. by eapply list_elem_of_lookup_2.
Qed.



(** ** Aggregator *)












(** ** Re-running the aggregator *)

Lemma get_loc_app_l (cols : list string) (name other : string) :
  name ≠ other → get_loc (cols ++ [other]) name = get_loc cols name.
Proof.
  intros Hne. unfold get_loc.
  destruct (list_find (λ c, c = name) cols) as [[j y]|] eqn:Hfind.
  - by erewrite list_find_app_l.
  - destruct (list_find _ (cols ++ _)) as [[j y]|] eqn:Hfind'; [|done].
    apply list_find_Some in Hfind' as (Hj & -> & _).
    apply list_find_None in Hfind. rewrite Forall_forall in Hfind.
    apply lookup_app_Some in Hj as [Hj|[_ Hj]].
    + destruct (Hfind name); [|done]. by eapply list_elem_of_lookup_2.
    + apply list_lookup_singleton_Some in Hj as [_ ?]. congruence.
Qed.

Lemma fmap_zip_with_stable {A B C : Type} (h : A → C) (F : A → B → A)
    (l : list A) (t : list B) :
  length t = length l →
  (∀ x v, x ∈ l → h (F x v) = h x) →
  h <$> zip_with F l t = h <$> l.
Proof.
  revert t. induction l as [|x l IH]; intros [|v t] Hlen Hstable;
    simplify_eq/=; [done|].
  f_equal; [apply Hstable; by left|].
  apply IH; [done|]. intros ???. apply Hstable. by right.
Qed.

Lemma zip_with_twice {A B : Type} (F G : A → B → A) (l : list A)
    (t : list B) :
  (∀ x v, x ∈ l → G (F x v) v = F x v) →
  zip_with G (zip_with F l t) t = zip_with F l t.
Proof.
  revert t. induction l as [|x l IH]; intros [|v t] Hfix; simpl; [done..|].
  f_equal; [apply Hfix; by left|].
  apply IH. intros ???. apply Hfix. by right.
Qed.

Lemma total_column_not_fund : total_column ∉ fund_columns.
Proof. by_computation. Qed.

Lemma traverse_Forall2 {A B : Type} (f : A → result B) (l : list A)
    (l' : list B) :
  traverse f l = Ok l' → Forall2 (λ x y, f x = Ok y) l l'.
Proof.
  revert l'. induction l as [|x l IH]; intros l'; simpl.
  - intros [= <-]. constructor.
  - intros (y & Hy & (ys & Hys & [= <-])%bind_Ok)%bind_Ok.
    constructor; [done|]. by apply IH.
Qed.

Lemma located_columns (cols names : list string) (js : list nat) :
  Forall2 (λ name j, get_loc cols name = Ok j) names js →
  ∀ j, j ∈ js → ∃ name, name ∈ names ∧ cols !! j = Some name.
Proof.
  induction 1 as [|name j' names js Hloc _ IH]; intros j Hj.
  - by apply elem_of_nil in Hj.
  - apply elem_of_cons in Hj as [->|Hj].
    + exists name. split; [by left|]. by apply get_loc_Ok in Hloc as [? _].
    + destruct (IH j Hj) as (name' & ? & ?). exists name'. split; [by right|done].
Qed.

Lemma pick_app (row : list value) (v : value) (js : list nat) :
  Forall (λ j, j < length row) js →
  (λ j, (row ++ [v]) !!! j) <$> js = (λ j, row !!! j) <$> js.
Proof.
  intros Hjs. apply Forall_fmap_ext_1.
  eapply Forall_impl; [done|]. intros j Hj. by apply lookup_total_app_l.
Qed.

Lemma pick_insert (row : list value) (v : value) (jt : nat) (js : list nat) :
  jt ∉ js →
  (λ j, <[jt := v]> row !!! j) <$> js = (λ j, row !!! j) <$> js.
Proof.
  intros Hjt. apply Forall_fmap_ext_1, Forall_forall.
  intros j Hj. apply list_lookup_total_insert_ne. by intros ->.
Qed.

(** C3, as the code has it.  Assigning to a column that exists overwrites
    it, and the sum reads the fund columns only: the aggregator run again
    on its own output returns that output unchanged, with no second total
    column. *)
Theorem reapplying_overwrites_total (df d1 : DataFrame) :
  df_wf df →
  add_total_research_expenditures df = Ok d1 →
  add_total_research_expenditures d1 = Ok d1.
Proof.
  intros [_ Hrect] Hrun. rewrite Forall_forall in Hrect.
  unfold add_total_research_expenditures in Hrun.
  apply bind_Ok in Hrun as (funds & Hsel & (tots & Hsum & [= <-])%bind_Ok).
  unfold select in Hsel. apply bind_Ok in Hsel as (js & Hjs & [= <-]).
  unfold sum_axis1 in Hsum. simpl in Hsum.
  pose proof (traverse_Ok_length _ _ _ Hsum) as Hlen.
  rewrite length_fmap in Hlen.
  pose proof (traverse_Forall2 _ _ _ Hjs) as Hlocs.
  set (d1 := setitem df total_column tots).
  assert (traverse (get_loc (columns d1)) fund_columns = Ok js) as Hjs1.
  { rewrite <-Hjs. apply traverse_ext. intros name Hname.
    unfold d1, setitem. destruct (list_find _ _) as [[jt y]|]; simpl; [done|].
    apply get_loc_app_l. intros ->. by apply total_column_not_fund. }
  assert ((λ row : list value, (λ j, row !!! j) <$> js) <$> data d1
          = (λ row : list value, (λ j, row !!! j) <$> js) <$> data df)
    as Hpick.
  { unfold d1, setitem.
    destruct (list_find _ _) as [[jt y]|] eqn:Hfind; simpl;
      (apply fmap_zip_with_stable; [done|]); intros row v Hrow.
    - apply list_find_Some in Hfind as (Hjt & -> & _).
      apply pick_insert. intros Hin.
      destruct (located_columns _ _ _ Hlocs jt Hin) as (name & Hname & Hloc).
      apply total_column_not_fund. congruence.
    - apply pick_app. apply Forall_forall. intros j Hj.
      destruct (located_columns _ _ _ Hlocs j Hj) as (name & Hname & Hloc).
      rewrite (Hrect row Hrow). by eapply lookup_lt_Some. }
  unfold add_total_research_expenditures, select. rewrite Hjs1. simpl.
  unfold sum_axis1. simpl. rewrite Hpick, Hsum. simpl. f_equal.
  unfold d1 at 2. unfold d1, setitem at 2.
  destruct (list_find _ (columns df)) as [[jt y]|] eqn:Hfind.
  - unfold setitem. simpl. rewrite Hfind. f_equal.
    apply zip_with_twice. intros row v _. apply list_insert_insert_eq.
  - unfold setitem. simpl.
    rewrite list_find_app_r by done. simpl.
    rewrite Hfind. f_equal.
    apply zip_with_twice. intros row v Hrow.
    apply list_insert_id. rewrite <-(Hrect row Hrow).
    by rewrite lookup_app_r, Nat.sub_diag.
Qed.

(** ** Sheet writer *)

Lemma written_fresh (v : value) : written v None = plain_cell v.
Proof. by destruct v. Qed.

Lemma ws_cell_lookup (r c : nat) (v : value) (ws : Worksheet)
    (rc : nat * nat) :
  ws_cells (ws_cell r c v ws) !! rc
  = if decide ((r, c) = rc) then Some (written v (ws_cells ws !! (r, c)))
    else ws_cells ws !! rc.
Proof.
  unfold ws_cell, written, touch_cell, update_cell, with_cells, get_cell.
  destruct v; simpl; by rewrite lookup_insert.
Qed.

Lemma write_row_from_miss (r k : nat) (row : list value) (ws : Worksheet)
    (r' c' : nat) :
  r' ≠ r ∨ c' < k ∨ k + length row ≤ c' →
  ws_cells (fold_left (λ ws cv, ws_cell r (fst cv) (snd cv) ws)
              (enumerate k row) ws) !! (r', c')
  = ws_cells ws !! (r', c').
Proof.
  revert k ws. induction row as [|v row IH]; intros k ws Hout; simpl; [done|].
  rewrite IH by (simpl in Hout; lia).
  rewrite ws_cell_lookup, decide_False; [done|].
  intros [= -> ->]. simpl in Hout. lia.
Qed.

Lemma write_row_from_hit (r k : nat) (row : list value) (ws : Worksheet)
    (j : nat) (v : value) :
  row !! j = Some v →
  ws_cells (fold_left (λ ws cv, ws_cell r (fst cv) (snd cv) ws)
              (enumerate k row) ws) !! (r, k + j)
  = Some (written v (ws_cells ws !! (r, k + j))).
Proof.
  revert k ws j. induction row as [|x row IH]; intros k ws j Hj; [done|].
  simpl. destruct j as [|j]; simpl in Hj.
  - injection Hj as ->. rewrite Nat.add_0_r.
    rewrite write_row_from_miss by lia.
    by rewrite ws_cell_lookup, decide_True.
  - replace (k + S j) with (S k + j) by lia.
    rewrite (IH _ _ _ Hj), ws_cell_lookup, decide_False; [done|].
    intros [=]. lia.
Qed.

Lemma write_rows_from_miss (k : nat) (rows : list (list value))
    (ws : Worksheet) (r' c' : nat) :
  r' < k ∨ k + length rows ≤ r' →
  ws_cells (fold_left (λ ws rr, write_row (fst rr) (snd rr) ws)
              (enumerate k rows) ws) !! (r', c')
  = ws_cells ws !! (r', c').
Proof.
  revert k ws. induction rows as [|row rows IH]; intros k ws Hout; simpl;
    [done|].
  rewrite IH by (simpl in Hout; lia).
  unfold write_row. apply write_row_from_miss. simpl in Hout. lia.
Qed.

Lemma write_rows_from_lookup (k : nat) (rows : list (list value))
    (ws : Worksheet) (i : nat) (row : list value) (c' : nat) :
  rows !! i = Some row →
  ws_cells (fold_left (λ ws rr, write_row (fst rr) (snd rr) ws)
              (enumerate k rows) ws) !! (k + i, c')
  = ws_cells (write_row (k + i) row ws) !! (k + i, c').
Proof.
  revert k ws i. induction rows as [|x rows IH]; intros k ws i Hi; [done|].
  simpl. destruct i as [|i]; simpl in Hi.
  - injection Hi as ->. rewrite Nat.add_0_r.
    by rewrite write_rows_from_miss by lia.
  - replace (k + S i) with (S k + i) by lia.
    rewrite (IH _ _ _ Hi). unfold write_row.
    destruct (decide (1 ≤ c' ∧ c' < 1 + length row)) as [Hc|Hc].
    + destruct (lookup_lt_is_Some_2 row (c' - 1)) as [v Hv]; [lia|].
      replace c' with (1 + (c' - 1)) by lia.
      rewrite !(write_row_from_hit _ _ _ _ _ _ Hv).
      by rewrite write_row_from_miss by lia.
    + rewrite !(write_row_from_miss (S k + i)) by lia.
      by rewrite write_row_from_miss by lia.
Qed.

Lemma write_rows_holds (df : DataFrame) (title : string) :
  sheet_holds df (write_rows df (new_sheet title)).
Proof.
  intros r c. unfold write_rows, record_field.
  destruct r as [|i].
  { by rewrite write_rows_from_miss by lia. }
  destruct (data df !! i) as [row|] eqn:Hrow.
  - replace (S i) with (1 + i) by lia.
    rewrite (write_rows_from_lookup _ _ _ _ _ _ Hrow). unfold write_row.
    destruct c as [|j]; [by rewrite write_row_from_miss by lia|].
    destruct (row !! j) as [v|] eqn:Hv.
    + replace (S j) with (1 + j) by lia.
      rewrite (write_row_from_hit _ _ _ _ _ _ Hv). simpl.
      by rewrite lookup_empty, written_fresh.
    + apply lookup_ge_None in Hv. by rewrite write_row_from_miss by lia.
  - apply lookup_ge_None in Hrow.
    rewrite write_rows_from_miss by lia. by destruct c.
Qed.

Lemma write_rows_title (df : DataFrame) (ws : Worksheet) :
  ws_title (write_rows df ws) = ws_title ws.
Proof.
  unfold write_rows. generalize 1 at 1. revert ws.
  induction (data df) as [|row rows IH]; intros ws k; simpl; [done|].
  rewrite IH. unfold write_row. generalize 1. revert ws.
  induction row as [|v row IHr]; intros ws k'; simpl; [done|].
  rewrite IHr. by destruct v.
Qed.


(** ** Lookup builder *)

Global Instance VStr_inj : Inj (=) (=) VStr.
Proof. by intros s1 s2 [=]. Qed.










(** ** Dashboards *)

Lemma create_academic_dashboard_run (wb : Workbook) (uniq : list value) :
  create_academic_dashboard wb uniq = Ok (wb ++ [academic_dashboard uniq]).
Proof.
  unfold academic_dashboard, create_academic_dashboard, add_data_validation.
  cbv beta iota zeta.
  match goal with
  | |- context [style_dashboard ?ws ?r ?n] =>
      destruct (style_dashboard ws r n) as [styled|e] eqn:Hstyle
  end.
  - done.
  - exfalso. vm_compute in Hstyle. discriminate Hstyle.
Qed.

Lemma create_research_dashboard_run (wb : Workbook) (uniq : list value) :
  create_research_dashboard wb uniq = Ok (wb ++ [research_dashboard uniq]).
Proof.
  unfold research_dashboard, create_research_dashboard, add_data_validation.
  cbv beta iota zeta.
  match goal with
  | |- context [style_dashboard ?ws ?r ?n] =>
      destruct (style_dashboard ws r n) as [styled|e] eqn:Hstyle
  end.
  - done.
  - exfalso. vm_compute in Hstyle. discriminate Hstyle.
Qed.

Lemma academic_cells_fixed (uniq : list value) :
  ws_cells (academic_dashboard uniq) = ws_cells (academic_dashboard []).
Proof. vm_compute. reflexivity. Qed.

Lemma research_cells_fixed (uniq : list value) :
  ws_cells (research_dashboard uniq) = ws_cells (research_dashboard []).
Proof. vm_compute. reflexivity. Qed.

Lemma shown_value_Some (ws : Worksheet) (rc : nat * nat) :
  shown_value ws rc ≠ VNone →
  ∃ cell, ws_cells ws !! rc = Some cell ∧ cell_value cell ≠ VNone.
Proof.
  unfold shown_value, get_cell.
  destruct (ws_cells ws !! rc) as [cell|]; [eauto|done].
Qed.

Lemma metrics_table_from_checks (ws : Worksheet) (headers : list string) :
  shown_value ws (12, 1) = VStr "Metrics Summary" →
  (λ c, shown_value ws (13, c)) <$> seq 1 (length headers)
    = VStr <$> headers →
  (λ r, shown_value ws (r, 1)) <$> seq 14 6
    = VStr <$> ["=B2"; "=B5"; "=B6"; "=B7"; "=B8"; "=B9"] →
  map_Forall (λ (rc : nat * nat) (cell : Cell),
       13 < fst rc → cell_value cell ≠ VNone →
       fst rc ≤ 19 ∧ 1 ≤ snd rc ≤ length headers) (ws_cells ws) →
  Forall (λ r, Forall (λ c, shown_value ws (r, c) ≠ VNone)
                 (seq 1 (length headers))) (seq 14 6) →
  metrics_table ws headers.
Proof.
  intros Htitle Hheaders Hrows Hout Hin.
  repeat split; try done.
  - destruct (shown_value_Some ws (r, c)) as (cell & Hcell & Hv); [done|].
    by destruct (Hout (r, c) cell Hcell).
  - destruct (shown_value_Some ws (r, c)) as (cell & Hcell & Hv); [done|].
    by destruct (Hout (r, c) cell Hcell) as (_ & ? & _).
  - destruct (shown_value_Some ws (r, c)) as (cell & Hcell & Hv); [done|].
    by destruct (Hout (r, c) cell Hcell) as (_ & _ & ?).
  - intros (Hr & Hc1 & Hc2).
    rewrite Forall_forall in Hin.
    assert (r ∈ seq 14 6) as Hr' by (apply elem_of_seq; lia).
    specialize (Hin r Hr'). rewrite Forall_forall in Hin.
    apply Hin, elem_of_seq. lia.
Qed.

Lemma academic_metrics_table :
  metrics_table (academic_dashboard [])
    academic_headers.
Proof.
  apply metrics_table_from_checks.
  - by vm_compute.
  - by vm_compute.
  - by vm_compute.
  - by_computation.
  - by_computation.
Qed.

Lemma research_metrics_table :
  metrics_table (research_dashboard [])
    research_headers.
Proof.
  apply metrics_table_from_checks.
  - by vm_compute.
  - by vm_compute.
  - by vm_compute.
  - by_computation.
  - by_computation.
Qed.

Lemma metrics_table_cells (ws ws' : Worksheet) (headers : list string) :
  ws_cells ws = ws_cells ws' → metrics_table ws' headers →
  metrics_table ws headers.
Proof.
  unfold metrics_table, shown_value, get_cell. by intros ->.
Qed.

(** C5.  Whatever the list of institutions (also the empty one), each
    dashboard builder succeeds and its sheet has a metrics table of one
    header row and exactly six data rows, rows 14 to 19: the primary
    institution and the five comparison institutions. *)
Theorem dashboards_have_six_metric_rows (wb : Workbook)
    (unique_institutions : list value) :
  (∃ ws, create_academic_dashboard wb unique_institutions = Ok (wb ++ [ws]) ∧
         metrics_table ws academic_headers) ∧
  (∃ ws, create_research_dashboard wb unique_institutions = Ok (wb ++ [ws]) ∧
         metrics_table ws research_headers).
Proof.
  split.
  - exists (academic_dashboard unique_institutions).
    split; [apply create_academic_dashboard_run|].
    eapply metrics_table_cells;
      [apply academic_cells_fixed|apply academic_metrics_table].
  - exists (research_dashboard unique_institutions).
    split; [apply create_research_dashboard_run|].
    eapply metrics_table_cells;
      [apply research_cells_fixed|apply research_metrics_table].
Qed.

(** ** Charts *)

Lemma academic_charts (uniq : list value) :
  ws_charts (academic_dashboard uniq)
  = [ ({| chart_title := "Faculty to Degree Ratios by Institution";
          chart_style := 10;
          chart_series := metric_series <$> [3; 4; 5];
          chart_height := 15; chart_width := 25 |}, "G2") ].
Proof. vm_compute. reflexivity. Qed.

Lemma research_charts (uniq : list value) :
  ws_charts (research_dashboard uniq)
  = [ ({| chart_title := "Research Dollars per Faculty by Institution";
          chart_style := 10;
          chart_series := metric_series <$> [4];
          chart_height := 15; chart_width := 25 |}, "G2") ].
Proof. vm_compute. reflexivity. Qed.

Lemma academic_plotted (uniq : list value) :
  plotted_columns (academic_dashboard uniq) = [3; 4; 5].
Proof. unfold plotted_columns. by rewrite academic_charts. Qed.

Lemma research_plotted (uniq : list value) :
  plotted_columns (research_dashboard uniq) = [4].
Proof. unfold plotted_columns. by rewrite research_charts. Qed.

(** C6, as the code has it.  Each dashboard holds one bar chart anchored
    at G2 whose labels are the institution cells A14..A19.  The academic
    chart plots the three ratio columns C, D and E; the research chart
    plots column D, "Research $ per Faculty", alone.  Neither plots the
    "Total Faculty" column. *)
Theorem charts_plot_the_ratio_columns (wb : Workbook)
    (unique_institutions : list value) :
  (∃ ws, create_academic_dashboard wb unique_institutions = Ok (wb ++ [ws]) ∧
         ws_charts ws
         = [ ({| chart_title := "Faculty to Degree Ratios by Institution";
                 chart_style := 10;
                 chart_series := metric_series <$> [3; 4; 5];
                 chart_height := 15; chart_width := 25 |}, "G2") ] ∧
         plotted_columns ws = [3; 4; 5]) ∧
  (∃ ws, create_research_dashboard wb unique_institutions = Ok (wb ++ [ws]) ∧
         ws_charts ws
         = [ ({| chart_title := "Research Dollars per Faculty by Institution";
                 chart_style := 10;
                 chart_series := metric_series <$> [4];
                 chart_height := 15; chart_width := 25 |}, "G2") ] ∧
         plotted_columns ws = [4]).
Proof.
  split.
  - exists (academic_dashboard unique_institutions).
    split; [apply create_academic_dashboard_run|].
    split; [apply academic_charts|apply academic_plotted].
  - exists (research_dashboard unique_institutions).
    split; [apply create_research_dashboard_run|].
    split; [apply research_charts|apply research_plotted].
Qed.

(** C6, as the claim has it, fails: on the dashboards built for two
    institutions the "Total Faculty" column (column 2) is in neither
    chart, so neither chart plots all the metric columns. *)
Lemma charts_leave_out_total_faculty :
  (∃ ws, create_academic_dashboard new_workbook [VStr "A"; VStr "B"]
         = Ok (new_workbook ++ [ws]) ∧
         plotted_columns ws = [3; 4; 5] ∧
         ¬ plots_all_metrics ws academic_headers) ∧
  (∃ ws, create_research_dashboard new_workbook [VStr "A"; VStr "B"]
         = Ok (new_workbook ++ [ws]) ∧
         plotted_columns ws = [4] ∧
         ¬ plots_all_metrics ws research_headers).
Proof.
  split.
  - exists (academic_dashboard [VStr "A"; VStr "B"]).
    split; [apply create_academic_dashboard_run|].
    split; [apply academic_plotted|]. intros Hall.
    assert (2 ∈ plotted_columns (academic_dashboard [VStr "A"; VStr "B"]))
      as Hin by (apply Hall; simpl; lia).
    rewrite academic_plotted in Hin. revert Hin. by_computation.
  - exists (research_dashboard [VStr "A"; VStr "B"]).
    split; [apply create_research_dashboard_run|].
    split; [apply research_plotted|]. intros Hall.
    assert (2 ∈ plotted_columns (research_dashboard [VStr "A"; VStr "B"]))
      as Hin by (apply Hall; simpl; lia).
    rewrite research_plotted in Hin. revert Hin. by_computation.
Qed.

(** ** Column widths *)

Lemma column_max_length_ge (ws : Worksheet) (col : list (nat * nat))
    (rc : nat * nat) :
  rc ∈ col →
  py_len (py_str (shown_value ws rc)) ≤ column_max_length ws col.
Proof.
  unfold column_max_length, shown_value.
  assert (∀ l m,
    m ≤ fold_left
          (λ max_length rc,
             let n := py_len (py_str (cell_value (get_cell ws rc))) in
             if max_length <? n then n else max_length) l m) as Hmono.
  { induction l as [|x l IH]; intros m; simpl; [done|].
    etrans; [|apply IH]. destruct (Nat.ltb_spec m
      (py_len (py_str (cell_value (get_cell ws x))))); lia. }
  generalize 0. induction col as [|x col IH]; intros m Hin.
  - by apply elem_of_nil in Hin.
  - apply elem_of_cons in Hin as [->|Hin]; simpl; [|by apply IH].
    etrans; [|apply Hmono].
    destruct (Nat.ltb_spec m
      (py_len (py_str (cell_value (get_cell ws x))))); lia.
Qed.

Lemma widths_cover_from_check (ws : Worksheet) :
  map_Forall (λ rc cell, width_covers ws rc cell = true) (ws_cells ws) →
  widths_cover ws.
Proof.
  intros Hall r c cell Hcell. specialize (Hall (r, c) cell Hcell).
  unfold width_covers in Hall. simpl in Hall.
  destruct (get_column_letter c) as [name|]; [|done].
  destruct (ws_column_widths ws !! name) as [w|] eqn:Hw; [|done].
  exists name, w. split; [done|]. split; [done|]. by apply Nat.leb_le.
Qed.

Lemma widths_cover_fixed (ws ws' : Worksheet) :
  ws_cells ws = ws_cells ws' → ws_column_widths ws = ws_column_widths ws' →
  widths_cover ws' → widths_cover ws.
Proof. unfold widths_cover. by intros -> ->. Qed.

Lemma academic_widths_fixed (uniq : list value) :
  ws_column_widths (academic_dashboard uniq)
  = ws_column_widths (academic_dashboard []).
Proof. vm_compute. reflexivity. Qed.

Lemma research_widths_fixed (uniq : list value) :
  ws_column_widths (research_dashboard uniq)
  = ws_column_widths (research_dashboard []).
Proof. vm_compute. reflexivity. Qed.

(** C9.  On both dashboards every column that holds a cell gets a width,
    and that width is at least the length of the text of each cell of the
    column, a formula counting by its text. *)
Theorem column_widths_cover_cell_texts (wb : Workbook)
    (unique_institutions : list value) :
  (∃ ws, create_academic_dashboard wb unique_institutions = Ok (wb ++ [ws]) ∧
         widths_cover ws) ∧
  (∃ ws, create_research_dashboard wb unique_institutions = Ok (wb ++ [ws]) ∧
         widths_cover ws).
Proof.
  split.
  - exists (academic_dashboard unique_institutions).
    split; [apply create_academic_dashboard_run|].
    eapply widths_cover_fixed;
      [apply academic_cells_fixed|apply academic_widths_fixed|].
    apply widths_cover_from_check. by_computation.
  - exists (research_dashboard unique_institutions).
    split; [apply create_research_dashboard_run|].
    eapply widths_cover_fixed;
      [apply research_cells_fixed|apply research_widths_fixed|].
    apply widths_cover_from_check. by_computation.
Qed.

(** ** Workbook assembler *)

Lemma write_column_title (c k : nat) (l : list value) (ws : Worksheet) :
  ws_title (fold_left (λ ws ii, ws_setitem (fst ii, c) (snd ii) ws)
              (enumerate k l) ws) = ws_title ws.
Proof.
  revert k ws. induction l as [|v l IH]; intros k ws; simpl; [done|].
  by rewrite IH.
Qed.

Lemma create_lookups_sheet_Ok (wb wb' : Workbook) (faculty_df : DataFrame)
    (uniq : list value) :
  create_lookups_sheet wb faculty_df = Ok (wb', uniq) →
  ∃ lookups, wb' = wb ++ [lookups] ∧ ws_title lookups = "Lookups".
Proof.
  unfold create_lookups_sheet.
  intros (names & _ & (u & _ & [= <- <-])%bind_Ok)%bind_Ok.
  eexists. split; [done|]. by rewrite write_column_title.
Qed.

Lemma create_dashboard_workbook_Ok
    (faculty_df degrees_df research_df : DataFrame) (wb : Workbook) :
  create_dashboard_workbook faculty_df degrees_df research_df = Ok wb →
  ∃ research_df' lookups uniq,
    add_total_research_expenditures research_df = Ok research_df' ∧
    ws_title lookups = "Lookups" ∧
    wb = [ new_sheet "Sheet";
           write_rows faculty_df (new_sheet "Faculty Data");
           write_rows degrees_df (new_sheet "Degrees Data");
           write_rows research_df' (new_sheet "Research Data");
           lookups;
           academic_dashboard uniq;
           research_dashboard uniq ].
Proof.
  unfold create_dashboard_workbook.
  intros (research_df' & Hagg & ([wb1 uniq] & Hlk & Hrest)%bind_Ok)%bind_Ok.
  apply create_lookups_sheet_Ok in Hlk as (lookups & -> & Htitle).
  apply bind_Ok in Hrest as (wb2 & Hacademic & Hresearch).
  rewrite create_academic_dashboard_run in Hacademic.
  injection Hacademic as <-.
  rewrite create_research_dashboard_run in Hresearch.
  injection Hresearch as <-.
  exists research_df', lookups, uniq.
  split; [exact Hagg|]. split; [exact Htitle|]. reflexivity.
Qed.

Lemma academic_title (uniq : list value) :
  ws_title (academic_dashboard uniq) = "Academic Dashboard".
Proof. vm_compute. reflexivity. Qed.

Lemma research_title (uniq : list value) :
  ws_title (research_dashboard uniq) = "Research Dashboard".
Proof. vm_compute. reflexivity. Qed.

Lemma sheetnames_of_run
    (faculty_df degrees_df research_df : DataFrame) (wb : Workbook) :
  create_dashboard_workbook faculty_df degrees_df research_df = Ok wb →
  sheetnames wb
  = [ "Sheet"; "Faculty Data"; "Degrees Data"; "Research Data"; "Lookups";
      "Academic Dashboard"; "Research Dashboard" ].
Proof.
  intros (research_df' & lookups & uniq & _ & Htitle & ->)
    %create_dashboard_workbook_Ok.
  unfold sheetnames. rewrite !fmap_cons, fmap_nil.
  rewrite !write_rows_title, Htitle, academic_title, research_title.
  reflexivity.
Qed.

(** C2.  The generator run on the sample tables returns a workbook of
    seven sheets: the empty sheet "Sheet" that a new workbook starts with
    is still there, in front of the six sheets the builders add. *)
Theorem workbook_keeps_the_default_sheet :
  ∃ wb,
    create_dashboard_workbook sample_faculty sample_degrees sample_research
    = Ok wb ∧
    sheetnames wb
    = [ "Sheet"; "Faculty Data"; "Degrees Data"; "Research Data"; "Lookups";
        "Academic Dashboard"; "Research Dashboard" ] ∧
    length wb = 7 ∧
    (ws_cells <$> wb !! 0) = Some ∅.
Proof.
  destruct (create_dashboard_workbook sample_faculty sample_degrees
              sample_research) as [wb|e] eqn:Hrun.
  - exists wb. split; [reflexivity|].
    pose proof (sheetnames_of_run _ _ _ _ Hrun) as Hnames.
    split; [exact Hnames|]. split.
    + change (length wb) with (length wb).
      rewrite <-(length_fmap ws_title). fold (sheetnames wb).
      rewrite Hnames. reflexivity.
    + apply create_dashboard_workbook_Ok in Hrun
        as (? & ? & ? & _ & _ & ->). reflexivity.
  - exfalso. vm_compute in Hrun. discriminate Hrun.
Qed.

(** ** The formulas of the metrics rows *)

(** The syntax trees are the text the generator writes, cell by cell, and
    the generator writes no other formula. *)
Lemma academic_formulas_are_the_text :
  map_Forall (λ rc e, shown_value (academic_dashboard []) rc
                      = VStr (formula_text e)) academic_formulas ∧
  map_Forall (λ rc cell, is_formula (cell_value cell) = true →
                         is_Some (academic_formulas !! rc))
    (ws_cells (academic_dashboard [])).
Proof. split; by_computation. Qed.

Lemma research_formulas_are_the_text :
  map_Forall (λ rc e, shown_value (research_dashboard []) rc
                      = VStr (formula_text e)) research_formulas ∧
  map_Forall (λ rc cell, is_formula (cell_value cell) = true →
                         is_Some (research_formulas !! rc))
    (ws_cells (research_dashboard [])).
Proof. split; by_computation. Qed.

Lemma academic_formulas_lookup :
  Forall (λ row,
      academic_formulas !! (row, col_A)
        = Some (ECell false col_B (selector_row 12 row)) ∧
      academic_formulas !! (selector_row 12 row, col_B) = None ∧
      Forall (λ f, academic_formulas !! (fst f) = Some (snd f))
        (academic_row_formulas row))
    (metrics_rows 12).
Proof. by_computation. Qed.

Lemma research_formulas_lookup :
  Forall (λ row,
      research_formulas !! (row, col_A)
        = Some (ECell false col_B (selector_row 12 row)) ∧
      research_formulas !! (selector_row 12 row, col_B) = None ∧
      Forall (λ f, research_formulas !! (fst f) = Some (snd f))
        (research_row_formulas row))
    (metrics_rows 12).
Proof. by_computation. Qed.

Section absent_institution.
Context (criterion_matches : xl → xl → bool) (read_value : value → xl)
        (numeric_text : string → option Qc) (wb : Workbook) (name : string).
Hypothesis Hsheets : ∀ t, t ∈ data_sheet_titles → t ∈ sheetnames wb.
Hypothesis Habsent :
  absent_from_data criterion_matches read_value wb (XText name).

Lemma find_sheet_titled (t : string) :
  t ∈ sheetnames wb →
  ∃ ws, find_sheet wb t = Some ws ∧ ws ∈ wb ∧ ws_title ws = t.
Proof.
  intros (ws & -> & Hws)%list_elem_of_fmap. unfold find_sheet.
  destruct (list_find (λ ws', ws_title ws' = ws_title ws) wb)
    as [[i ws']|] eqn:Hfind.
  - apply list_find_Some in Hfind as (Hi & Ht & _).
    exists ws'. split; [done|]. split; [|done].
    by eapply list_elem_of_lookup_2.
  - apply list_find_None in Hfind. rewrite Forall_forall in Hfind.
    by destruct (Hfind ws Hws).
Qed.

Lemma sumifs_absent (s : string) (sum_col criteria_col : nat) :
  s ∈ data_sheet_titles →
  sumifs criterion_matches read_value wb s sum_col s criteria_col
    (XText name) = XNum 0%Qc.
Proof.
  intros Hs. unfold sumifs.
  destruct (find_sheet_titled s (Hsheets s Hs)) as (ws & -> & Hws & Ht).
  generalize (range 1 (S (ws_max_row ws `max` ws_max_row ws))).
  intros rows. induction rows as [|r rows IH]; [done|].
  cbn [fold_left]. unfold sumifs_step at 2. unfold shown.
  fold (shown_value ws (r, criteria_col)).
  rewrite Habsent; [exact IH|exact Hws|by rewrite Ht].
Qed.

Context (formulas : gmap (nat * nat) expr) (typed : nat * nat → xl)
        (row sel : nat).
Hypothesis Hinstitution :
  formulas !! (row, col_A) = Some (ECell false col_B sel).
Hypothesis Hselector : formulas !! (sel, col_B) = None.
Hypothesis Htyped : typed (sel, col_B) = XText name.

Local Notation "'eval'" :=
  (eval_cell criterion_matches read_value numeric_text wb formulas typed)
  (only parsing).

Lemma eval_institution (fuel : nat) : eval (S fuel) (row, col_A) = XText name.
Proof.
  cbn [eval_cell]. rewrite Hinstitution. cbn [eval_expr].
  destruct fuel; cbn [eval_cell]; by rewrite Hselector.
Qed.

Lemma eval_sumifs_absent (fuel : nat) (s : string)
    (sum_col criteria_col : nat) :
  s ∈ data_sheet_titles →
  eval_expr criterion_matches read_value numeric_text wb (eval (S fuel))
    (sumifs_by_institution s sum_col criteria_col row) = XNum 0%Qc.
Proof.
  intros Hs. unfold sumifs_by_institution. cbn [eval_expr].
  rewrite eval_institution. by apply sumifs_absent.
Qed.

Lemma xl_add_zero :
  xl_add numeric_text (XNum 0%Qc) (XNum 0%Qc) = XNum 0%Qc.
Proof. unfold xl_add, to_number. by rewrite Qcplus_0_l. Qed.

Lemma xl_div_zero :
  xl_div numeric_text (XNum 0%Qc) (XNum 0%Qc) = XErr DIV0.
Proof.
  unfold xl_div, to_number. by destruct (decide (0%Qc = 0%Qc)).
Qed.

Lemma eval_total_faculty (fuel : nat) :
  eval_expr criterion_matches read_value numeric_text wb (eval (S fuel))
    (total_faculty_expr row) = XNum 0%Qc.
Proof.
  unfold total_faculty_expr. cbn [eval_expr].
  fold (sumifs_by_institution "Faculty Data" 4 2 row).
  fold (sumifs_by_institution "Faculty Data" 5 2 row).
  fold (sumifs_by_institution "Faculty Data" 6 2 row).
  rewrite !eval_sumifs_absent by by_computation.
  by rewrite !xl_add_zero.
Qed.

Lemma eval_cell_formula (fuel : nat) (rc : nat * nat) (e : expr) :
  formulas !! rc = Some e →
  eval (S fuel) rc
  = eval_expr criterion_matches read_value numeric_text wb (eval fuel) e.
Proof. intros Hrc. cbn [eval_cell]. by rewrite Hrc. Qed.

Hypothesis Hfaculty :
  formulas !! (row, col_B) = Some (total_faculty_expr row).

Lemma eval_faculty_cell (fuel : nat) :
  eval (S (S fuel)) (row, col_B) = XNum 0%Qc.
Proof.
  rewrite (eval_cell_formula _ _ _ Hfaculty). apply eval_total_faculty.
Qed.

Lemma eval_ratio_cell (fuel : nat) (degree_col : nat) (rc : nat * nat) :
  formulas !! rc = Some (ratio_expr degree_col row) →
  eval (S (S (S fuel))) rc = XNum 0%Qc.
Proof.
  intros Hrc. rewrite (eval_cell_formula _ _ _ Hrc).
  unfold ratio_expr. cbn [eval_expr].
  rewrite eval_faculty_cell, eval_sumifs_absent by by_computation.
  by rewrite xl_div_zero.
Qed.

Lemma eval_total_research (fuel : nat) :
  eval_expr criterion_matches read_value numeric_text wb (eval (S fuel))
    (total_research_expr row) = XNum 0%Qc.
Proof.
  unfold total_research_expr.
  change (range 5 11) with [5; 6; 7; 8; 9; 10].
  cbn [fold_left eval_expr].
  rewrite !eval_sumifs_absent by by_computation.
  by rewrite !xl_add_zero.
Qed.

Lemma eval_dollars_cell (fuel : nat) (rc : nat * nat) :
  formulas !! (row, col_C) = Some (total_research_expr row) →
  formulas !! rc = Some (dollars_per_faculty_expr row) →
  eval (S (S (S fuel))) rc = XNum 0%Qc.
Proof.
  intros Hresearch Hrc. rewrite (eval_cell_formula _ _ _ Hrc).
  unfold dollars_per_faculty_expr. cbn [eval_expr].
  rewrite (eval_cell_formula _ _ _ Hresearch), eval_total_research.
  rewrite eval_faculty_cell. by rewrite xl_div_zero.
Qed.
End absent_institution.

Lemma shown_value_cells (ws ws' : Worksheet) (rc : nat * nat) :
  ws_cells ws = ws_cells ws' → shown_value ws rc = shown_value ws' rc.
Proof. unfold shown_value, get_cell. by intros ->. Qed.

(** C7.  Take the workbook the generator returns, any way the engine
    matches criteria, reads stored values and converts texts, and a metrics
    row whose selector cell holds an institution name that no cell of the
    three data sheets matches.  Then every metric cell of that row, on both
    dashboards, holds the text of a formula that evaluates to the number 0:
    the [SUMIFS] terms add up no row, and the divisions, which are 0/0, are
    caught by [IFERROR]. *)
Theorem absent_institution_metrics_are_zero
    (criterion_matches : xl → xl → bool) (read_value : value → xl)
    (numeric_text : string → option Qc)
    (faculty_df degrees_df research_df : DataFrame) (wb : Workbook)
    (typed : nat * nat → xl) (name : string) (row : nat) :
  create_dashboard_workbook faculty_df degrees_df research_df = Ok wb →
  row ∈ metrics_rows 12 →
  typed (selector_row 12 row, col_B) = XText name →
  absent_from_data criterion_matches read_value wb (XText name) →
  ∃ academic research,
    wb !! 5 = Some academic ∧ wb !! 6 = Some research ∧
    (∀ rc e, (rc, e) ∈ academic_row_formulas row →
       shown_value academic rc = VStr (formula_text e) ∧
       ∀ fuel, 3 ≤ fuel →
         eval_cell criterion_matches read_value numeric_text wb
           academic_formulas typed fuel rc = XNum 0%Qc) ∧
    (∀ rc e, (rc, e) ∈ research_row_formulas row →
       shown_value research rc = VStr (formula_text e) ∧
       ∀ fuel, 3 ≤ fuel →
         eval_cell criterion_matches read_value numeric_text wb
           research_formulas typed fuel rc = XNum 0%Qc).
Proof.
  intros Hrun Hrow Htyped Habsent.
  pose proof (sheetnames_of_run _ _ _ _ Hrun) as Hnames.
  assert (∀ t, t ∈ data_sheet_titles → t ∈ sheetnames wb) as Hsheets.
  { rewrite Hnames. apply Forall_forall. by_computation. }
  apply create_dashboard_workbook_Ok in Hrun
    as (research_df' & lookups & uniq & _ & _ & Hwb).
  exists (academic_dashboard uniq), (research_dashboard uniq).
  split; [by rewrite Hwb|]. split; [by rewrite Hwb|].
  split.
  - pose proof academic_formulas_lookup as Hlookup.
    rewrite Forall_forall in Hlookup.
    destruct (Hlookup row Hrow) as (Hinst & Hsel & Hcells).
    rewrite Forall_forall in Hcells.
    assert (academic_formulas !! (row, col_B) = Some (total_faculty_expr row))
      as Hfaculty by (apply (Hcells (row, col_B, _)); left).
    intros rc e Hin. pose proof (Hcells (rc, e) Hin) as Hrc. simpl in Hrc.
    split.
    { rewrite (shown_value_cells _ _ _ (academic_cells_fixed uniq)).
      by apply (proj1 academic_formulas_are_the_text). }
    intros fuel Hfuel. destruct fuel as [|[|[|fuel]]]; [lia..|].
    unfold academic_row_formulas in Hin.
    apply elem_of_cons in Hin as [[= -> ->]|Hin].
    { by eapply eval_faculty_cell. }
    repeat (apply elem_of_cons in Hin as [[= -> ->]|Hin];
            [by eapply eval_ratio_cell|]).
    by apply elem_of_nil in Hin.
  - pose proof research_formulas_lookup as Hlookup.
    rewrite Forall_forall in Hlookup.
    destruct (Hlookup row Hrow) as (Hinst & Hsel & Hcells).
    rewrite Forall_forall in Hcells.
    assert (research_formulas !! (row, col_B) = Some (total_faculty_expr row))
      as Hfaculty by (apply (Hcells (row, col_B, _)); left).
    assert (research_formulas !! (row, col_C)
            = Some (total_research_expr row))
      as Hresearch by (apply (Hcells (row, col_C, _)); right; left).
    intros rc e Hin. pose proof (Hcells (rc, e) Hin) as Hrc. simpl in Hrc.
    split.
    { rewrite (shown_value_cells _ _ _ (research_cells_fixed uniq)).
      by apply (proj1 research_formulas_are_the_text). }
    intros fuel Hfuel. destruct fuel as [|[|[|fuel]]]; [lia..|].
    unfold research_row_formulas in Hin.
    apply elem_of_cons in Hin as [[= -> ->]|Hin].
    { by eapply eval_faculty_cell. }
    apply elem_of_cons in Hin as [[= -> ->]|Hin].
    { rewrite (eval_cell_formula _ _ _ _ _ _ _ _ _ Hresearch).
      by eapply eval_total_research. }
    apply elem_of_cons in Hin as [[= -> ->]|Hin].
    { by eapply eval_dollars_cell. }
    by apply elem_of_nil in Hin.
Qed.

(** ** The theorems at the sample tables *)


Lemma sample_research_wf : df_wf sample_research.
Proof. split; [by_computation|]. repeat constructor. Defined.



(** C3 on the sample table: the second run returns what the first did. *)
Lemma reapplying_overwrites_total_witness :
  df_wf sample_research ∧
  add_total_research_expenditures sample_research
  = Ok sample_research_totalled ∧
  add_total_research_expenditures sample_research_totalled
  = Ok sample_research_totalled.
Proof.
  assert (add_total_research_expenditures sample_research
          = Ok sample_research_totalled) as Hrun
    by (vm_compute; reflexivity).
  split; [exact sample_research_wf|]. split; [exact Hrun|].
  exact (reapplying_overwrites_total sample_research sample_research_totalled
           sample_research_wf Hrun).
Defined.

(** C3, as the claim has it, fails: a second run on the sample table
    leaves the number of columns as it was. *)
Lemma second_run_adds_no_column : ¬ double_appends sample_research.
Proof.
  intros (once & twice & Hfirst & Hsecond & Hlen).
  vm_compute in Hfirst. injection Hfirst as <-.
  vm_compute in Hsecond. injection Hsecond as <-.
  vm_compute in Hlen. discriminate Hlen.
Qed.


Lemma sample_workbook_run :
  create_dashboard_workbook sample_faculty sample_degrees sample_research
  = Ok sample_workbook.
Proof. vm_compute. reflexivity. Defined.

Lemma sample_workbook_absent :
  absent_from_data exact_match plain_reading sample_workbook (XText "Z").
Proof.
  assert (Forall (λ ws, ws_title ws ∈ data_sheet_titles →
            map_Forall (λ _ cell,
                exact_match (plain_reading (cell_value cell)) (XText "Z")
                = false) (ws_cells ws)) sample_workbook) as Hcells
    by by_computation.
  rewrite Forall_forall in Hcells.
  intros ws rc Hws Htitle. specialize (Hcells ws Hws Htitle).
  unfold shown_value, get_cell.
  destruct (ws_cells ws !! rc) as [cell|] eqn:Hcell; [|reflexivity].
  exact (Hcells rc cell Hcell).
Defined.

(** C7 on the sample workbook: the selector of row 14 holds "Z", a name
    that is in none of the data sheets. *)
Lemma absent_institution_metrics_are_zero_witness :
  14 ∈ metrics_rows 12 ∧
  ∃ academic research,
    sample_workbook !! 5 = Some academic ∧
    sample_workbook !! 6 = Some research ∧
    (∀ rc e, (rc, e) ∈ academic_row_formulas 14 →
       shown_value academic rc = VStr (formula_text e) ∧
       ∀ fuel, 3 ≤ fuel →
         eval_cell exact_match plain_reading (λ _, None) sample_workbook
           academic_formulas (λ _, XText "Z") fuel rc = XNum 0%Qc) ∧
    (∀ rc e, (rc, e) ∈ research_row_formulas 14 →
       shown_value research rc = VStr (formula_text e) ∧
       ∀ fuel, 3 ≤ fuel →
         eval_cell exact_match plain_reading (λ _, None) sample_workbook
           research_formulas (λ _, XText "Z") fuel rc = XNum 0%Qc).
Proof.
  assert (14 ∈ metrics_rows 12) as Hrow by by_computation.
  split; [exact Hrow|].
  exact (absent_institution_metrics_are_zero exact_match plain_reading
           (λ _, None) sample_faculty sample_degrees sample_research
           sample_workbook (λ _, XText "Z") "Z" 14
           sample_workbook_run Hrow eq_refl sample_workbook_absent).
Defined.

(** ** The engine model on the sample workbook

    In the sample tables institution "A" has 1 + 2 + 3 faculty and 10
    bachelor degrees, and "Z" does not occur. *)

Definition sample_metric (selected : string) (rc : nat * nat) : option Q :=
  match
    eval_cell exact_match plain_reading (λ _, None) sample_workbook
      academic_formulas (λ _, XText selected) 3 rc
  with
  | XNum q => Some (this q)
  | _ => None
  end.

Example total_faculty_of_A : sample_metric "A" (14, col_B) = Some (6 # 1)%Q.
Proof. vm_compute. reflexivity. Qed.

Example faculty_per_bachelor_of_A :
  sample_metric "A" (14, col_C) = Some (3 # 5)%Q.
Proof. vm_compute. reflexivity. Qed.

Example metrics_of_Z :
  sample_metric "Z" <$> [(14, col_B); (14, col_C); (14, col_D); (14, col_E)]
  = [Some 0%Q; Some 0%Q; Some 0%Q; Some 0%Q].
Proof. vm_compute. reflexivity. Qed.

(** In a run, sheets 2 to 4 of the workbook hold the faculty table, the
    degrees table and the research table with its derived column. *)
Lemma run_data_sheets
    (faculty_df degrees_df research_df : DataFrame) (wb : Workbook) :
  create_dashboard_workbook faculty_df degrees_df research_df = Ok wb →
  ∃ research_df' faculty_sheet degrees_sheet research_sheet,
    add_total_research_expenditures research_df = Ok research_df' ∧
    wb !! 1 = Some faculty_sheet ∧ sheet_holds faculty_df faculty_sheet ∧
    wb !! 2 = Some degrees_sheet ∧ sheet_holds degrees_df degrees_sheet ∧
    wb !! 3 = Some research_sheet ∧ sheet_holds research_df' research_sheet.
Proof.
  intros (research_df' & lookups & uniq & Hagg & _ & ->)
    %create_dashboard_workbook_Ok.
  exists research_df'. eexists _, _, _.
  split; [exact Hagg|].
  repeat (split; [first [reflexivity|apply write_rows_holds]|]).
  apply write_rows_holds.
Qed.
